(** * restaurphoto: the [App] component of [src/App.tsx]

    A shallow embedding of the photo-restoration page: its five React state
    variables, the handlers that write them ([handleFileChange],
    [handleRestore], [resetState], [triggerFileSelect]), the part of the
    render function that decides which controls exist, and the browser
    services the handlers call ([URL.createObjectURL],
    [URL.revokeObjectURL], the file input, the console and the imported
    [restorePhoto]).

    A handler is modelled as a computation that journals, in source order,
    every state setter it calls and every external call it makes.  React
    applies the journalled setters to the state the handler closed over;
    the external calls act on the browser at once. *)

From Stdlib Require Import String Ascii List Bool Arith Lia.
From Stdlib Require Import DecimalString DecimalNat.
Import ListNotations.
Open Scope string_scope.

(** * Part I: the model *)


(** ** Data *)

(** A DOM [File].  The component reads only [type]; [name] and the bytes
    travel with the file to the restoration service. *)
Record File : Type := mkFile {
  name : string;
  type : string;
  bytes : string
}.

(** The five [useState] cells of [App], with their TypeScript types:
    [File | null], [string | null], [string | null], [boolean],
    [string | null]. *)
Record State : Type := mkState {
  originalImage : option File;
  originalImageUrl : option string;
  restoredImageUrl : option string;
  isLoading : bool;
  error : option string
}.

(** The initial values passed to [useState]. *)
Definition initialState : State :=
  {| originalImage := None;
     originalImageUrl := None;
     restoredImageUrl := None;
     isLoading := false;
     error := None |}.

(** JavaScript truthiness of a [string | null]: [null] and the empty
    string are falsy. *)
Definition truthy (v : option string) : bool :=
  match v with
  | Some s => negb (s =? EmptyString)
  | None => false
  end.

(** Truthiness of a [File | null]: every object is truthy. *)
Definition present (v : option File) : bool :=
  match v with
  | Some _ => true
  | None => false
  end.

(** [String.prototype.startsWith]. *)
Definition startsWith (s p : string) : bool := String.prefix p s.

(** The two messages the component can put in [error]. *)
Definition validationMessage : string :=
  "Please upload a valid image file (PNG, JPG, etc.).".

Definition failureMessage : string :=
  "Failed to restore photo. Please try again later.".

(** How the promise returned by [restorePhoto] settles: fulfilled with the
    base64 text, or rejected with some reason (only logged). *)
Inductive Outcome : Type :=
| Fulfilled (restoredBase64 : string)
| Rejected (err : string).

(** ** The journal of a handler *)

Inductive Action : Type :=
| SetOriginalImage (v : option File)
| SetOriginalImageUrl (v : option string)
| SetRestoredImageUrl (v : option string)
| SetIsLoading (v : bool)
| SetError (v : option string)
| CreateObjectURL (f : File) (u : string)
| RevokeObjectURL (u : string)
| ClearFileInput
| ClickFileInput
| RestorePhoto (f : File)
| ConsoleError (err : string).

(** React's reading of one journal entry: a setter replaces its cell, an
    external call leaves the state alone. *)
Definition applyAction (a : Action) (s : State) : State :=
  match a with
  | SetOriginalImage v =>
      mkState v (originalImageUrl s) (restoredImageUrl s) (isLoading s) (error s)
  | SetOriginalImageUrl v =>
      mkState (originalImage s) v (restoredImageUrl s) (isLoading s) (error s)
  | SetRestoredImageUrl v =>
      mkState (originalImage s) (originalImageUrl s) v (isLoading s) (error s)
  | SetIsLoading v =>
      mkState (originalImage s) (originalImageUrl s) (restoredImageUrl s) v (error s)
  | SetError v =>
      mkState (originalImage s) (originalImageUrl s) (restoredImageUrl s) (isLoading s) v
  | _ => s
  end.

(** The state committed after a whole journal (setters batched, last
    write wins). *)
Definition commit (j : list Action) (s : State) : State :=
  fold_left (fun acc a => applyAction a acc) j s.

(** The states React can show while a journal is applied one setter at a
    time (no batching): the state after each entry. *)
Fixpoint renders (j : list Action) (s : State) : list State :=
  match j with
  | [] => []
  | a :: j' => applyAction a s :: renders j' (applyAction a s)
  end.

(** ** The browser *)

(** The blob URL store: the object URLs that are live, and the supply of
    identifiers for new ones. *)
Record Browser : Type := mkBrowser {
  blobStore : list string;
  nextBlob : nat
}.

Definition initialBrowser : Browser := mkBrowser [] 0.

(** The text of the [n]-th object URL.  Browsers use a UUID; a counter in
    decimal stands for it. *)
Definition blobUrl (n : nat) : string :=
  "blob:" ++ NilEmpty.string_of_uint (Nat.to_uint n).

(** What one external call does to the blob URL store. *)
Definition perform (a : Action) (b : Browser) : Browser :=
  match a with
  | CreateObjectURL _ u => mkBrowser (blobStore b ++ [u])%list (S (nextBlob b))
  | RevokeObjectURL u =>
      mkBrowser (filter (fun v => negb (v =? u)) (blobStore b)) (nextBlob b)
  | _ => b
  end.

Definition performAll (j : list Action) (b : Browser) : Browser :=
  fold_left (fun acc a => perform a acc) j b.

(** The blob URL store after each entry of a journal. *)
Fixpoint stores (j : list Action) (b : Browser) : list (list string) :=
  match j with
  | [] => []
  | a :: j' => blobStore (perform a b) :: stores j' (perform a b)
  end.

(** ** Handlers as journalling computations *)

Module Handler.

Definition t (A : Type) : Type := Browser -> A * Browser * list Action.

Definition ret {A} (x : A) : t A := fun b => (x, b, []).

Definition bind {A B} (m : t A) (k : A -> t B) : t B :=
  fun b =>
    let '(x, b1, j1) := m b in
    let '(y, b2, j2) := k x b1 in
    (y, b2, (j1 ++ j2)%list).

(** Journal one call and let the browser perform it. *)
Definition call (a : Action) : t unit :=
  fun b => (tt, perform a b, [a]).

End Handler.

Notation "x <- m ;; k" := (Handler.bind m (fun x => k))
  (at level 61, m at next level, right associativity).
Notation "m ;; k" := (Handler.bind m (fun _ => k))
  (at level 61, right associativity).

(** The browser after a handler run, and the journal of the run. *)
Definition browserOf {A} (r : A * Browser * list Action) : Browser := snd (fst r).
Definition journalOf {A} (r : A * Browser * list Action) : list Action := snd r.

(** [URL.createObjectURL(file)]: a new URL, entered in the store. *)
Definition createObjectURL (f : File) : Handler.t string :=
  fun b =>
    let u := blobUrl (nextBlob b) in
    (u, perform (CreateObjectURL f u) b, [CreateObjectURL f u]).

(** [URL.revokeObjectURL(url)]. *)
Definition revokeObjectURL (u : string) : Handler.t unit :=
  Handler.call (RevokeObjectURL u).

(** The file [<input>] sits among the children of the "Original Photo"
    frame, which are rendered only while that frame has no image; so
    [fileInputRef.current] is non-null exactly when [originalImageUrl] is
    falsy. *)
Definition fileInputMounted (s : State) : bool :=
  negb (truthy (originalImageUrl s)).

(** [resetState], lines 72-84. *)
Definition resetState (s : State) : Handler.t unit :=
  Handler.call (SetOriginalImage None) ;;
  (match originalImageUrl s with
   | Some u => if negb (u =? EmptyString) then revokeObjectURL u else Handler.ret tt
   | None => Handler.ret tt
   end) ;;
  Handler.call (SetOriginalImageUrl None) ;;
  Handler.call (SetRestoredImageUrl None) ;;
  Handler.call (SetIsLoading false) ;;
  Handler.call (SetError None) ;;
  (if fileInputMounted s then Handler.call ClearFileInput else Handler.ret tt).

(** [handleFileChange], lines 41-52; [files] is
    [event.target.files?.[0]]. *)
Definition handleFileChange (files : option File) (s : State) : Handler.t unit :=
  match files with
  | Some file =>
      if negb (startsWith (type file) "image/") then
        Handler.call (SetError (Some validationMessage))
      else
        resetState s ;;
        Handler.call (SetOriginalImage (Some file)) ;;
        u <- createObjectURL file ;;
        Handler.call (SetOriginalImageUrl (Some u))
  | None => Handler.ret tt
  end.

(** [handleRestore], lines 54-70, up to the [await]: the result is the
    file captured by the suspended continuation, or [None] when the
    handler returned at once. *)
Definition handleRestore (s : State) : Handler.t (option File) :=
  match originalImage s with
  | None => Handler.ret None
  | Some file =>
      Handler.call (SetIsLoading true) ;;
      Handler.call (SetError None) ;;
      Handler.call (SetRestoredImageUrl None) ;;
      Handler.call (RestorePhoto file) ;;
      Handler.ret (Some file)
  end.

(** The template literal of line 63. *)
Definition dataUrl (mime restoredBase64 : string) : string :=
  "data:" ++ mime ++ ";base64," ++ restoredBase64.

(** [handleRestore] after the [await]: the [try] continuation or the
    [catch] block, then [finally].  [file] is the [originalImage] the
    callback closed over. *)
Definition handleRestore_settled (file : File) (o : Outcome) : Handler.t unit :=
  (match o with
   | Fulfilled restoredBase64 =>
       Handler.call (SetRestoredImageUrl (Some (dataUrl (type file) restoredBase64)))
   | Rejected err =>
       Handler.call (ConsoleError err) ;;
       Handler.call (SetError (Some failureMessage))
   end) ;;
  Handler.call (SetIsLoading false).

(** [triggerFileSelect], line 86. *)
Definition triggerFileSelect (s : State) : Handler.t unit :=
  if fileInputMounted s then Handler.call ClickFileInput else Handler.ret tt.

(** ** What is rendered *)

(** The body of a [PhotoFrame]: the spinner, the image, or the children. *)
Inductive Frame : Type :=
| Spinner
| Img (src : string)
| Children.

Definition PhotoFrame (imageUrl : option string) (loading : bool) : Frame :=
  if loading then Spinner
  else match imageUrl with
       | Some u => if negb (u =? EmptyString) then Img u else Children
       | None => Children
       end.

(** The [<a href download>] of lines 154-161. *)
Record Anchor : Type := mkAnchor {
  href : string;
  download : string
}.

(** The controls of the page that depend on the state.  [startOver] is
    [None] when the button is not rendered and otherwise carries its
    [disabled] attribute. *)
Record View : Type := mkView {
  banner : option string;
  originalFrame : Frame;
  restoredFrame : Frame;
  restoreDisabled : bool;
  restoreLabel : string;
  downloadLink : option Anchor;
  startOver : option bool
}.

(** The state-dependent part of the JSX returned by [App], lines 88-175.
    The "Original Photo" frame is given no [isLoading] prop. *)
Definition render (s : State) : View :=
  {| banner := if truthy (error s) then error s else None;
     originalFrame := PhotoFrame (originalImageUrl s) false;
     restoredFrame := PhotoFrame (restoredImageUrl s) (isLoading s);
     restoreDisabled := negb (present (originalImage s)) || isLoading s;
     restoreLabel := if isLoading s then "Restoring..." else "Restore Photo";
     downloadLink :=
       match restoredImageUrl s with
       | Some u => if negb (u =? EmptyString) then Some (mkAnchor u "restored-photo.png") else None
       | None => None
       end;
     startOver :=
       if present (originalImage s) || truthy (restoredImageUrl s)
       then Some (isLoading s) else None |}.

(** ** The status of the session

    The component keeps no status variable.  The five statuses of the
    specification are read off the state the way the page shows it: a
    restoration in flight (the spinner) first, then a restored image, then
    the restoration-failure message, then a selected file. *)
Inductive Status : Type := Idle | Ready | Restoring | Succeeded | Failed.

Definition showsFailure (e : option string) : bool :=
  match e with
  | Some m => m =? failureMessage
  | None => false
  end.

Definition status (s : State) : Status :=
  if isLoading s then Restoring
  else if truthy (restoredImageUrl s) then Succeeded
  else if showsFailure (error s) then Failed
  else if present (originalImage s) then Ready
  else Idle.

Definition Status_eqb (x y : Status) : bool :=
  match x, y with
  | Idle, Idle | Ready, Ready | Restoring, Restoring
  | Succeeded, Succeeded | Failed, Failed => true
  | _, _ => false
  end.

(** A run of equal statuses is seen as one status. *)
Fixpoint distinctRuns (l : list Status) : list Status :=
  match l with
  | [] => []
  | x :: l' =>
      match l' with
      | [] => [x]
      | y :: _ => if Status_eqb x y then distinctRuns l' else x :: distinctRuns l'
      end
  end.

(** The statuses a session shows, in order, from state [s] while the
    journal [j] is applied setter by setter. *)
Definition statusTrace (s : State) (j : list Action) : list Status :=
  distinctRuns (status s :: map status (renders j s)).

(** ** The session: component state, browser, requests in flight *)

Record Session : Type := mkSession {
  state : State;
  browser : Browser;
  pending : list File
}.

Definition initialSession : Session := mkSession initialState initialBrowser [].

(** What can happen to the page: the file input changes, one of the three
    buttons is clicked, or the [n]-th request in flight settles. *)
Inductive Event : Type :=
| FileChange (files : option File)
| ClickSelect
| ClickRestore
| ClickStartOver
| Settle (n : nat) (o : Outcome).

Fixpoint removeNth {A} (n : nat) (l : list A) : list A :=
  match l, n with
  | [], _ => []
  | _ :: l', O => l'
  | x :: l', S n' => x :: removeNth n' l'
  end.

(** The handler an event runs on a session: the session afterwards and
    the journal of the run. *)
Definition handle (e : Event) (c : Session) : Session * list Action :=
  let s := state c in
  match e with
  | FileChange files =>
      let '(_, b, j) := handleFileChange files s (browser c) in
      (mkSession (commit j s) b (pending c), j)
  | ClickSelect =>
      let '(_, b, j) := triggerFileSelect s (browser c) in
      (mkSession (commit j s) b (pending c), j)
  | ClickRestore =>
      let '(captured, b, j) := handleRestore s (browser c) in
      (mkSession (commit j s) b
         (pending c ++ match captured with Some f => [f] | None => [] end)%list, j)
  | ClickStartOver =>
      let '(_, b, j) := resetState s (browser c) in
      (mkSession (commit j s) b (pending c), j)
  | Settle n o =>
      match nth_error (pending c) n with
      | Some f =>
          let '(_, b, j) := handleRestore_settled f o (browser c) in
          (mkSession (commit j s) b (removeNth n (pending c)), j)
      | None => (c, [])
      end
  end.

Definition fire (e : Event) (c : Session) : Session := fst (handle e c).
Definition journal (e : Event) (c : Session) : list Action := snd (handle e c).

(** Whether the page, as rendered, lets the event happen: the file input
    and the "Select Photo" button exist only while mounted, a disabled or
    absent button cannot be clicked, and only a request in flight can
    settle. *)
Definition enabled (e : Event) (c : Session) : bool :=
  match e with
  | FileChange _ => fileInputMounted (state c)
  | ClickSelect => fileInputMounted (state c)
  | ClickRestore => negb (restoreDisabled (render (state c)))
  | ClickStartOver =>
      match startOver (render (state c)) with
      | Some disabled => negb disabled
      | None => false
      end
  | Settle n _ => Nat.ltb n (List.length (pending c))
  end.

(** The sessions a user can bring about through the rendered page. *)
Inductive reachable : Session -> Prop :=
| reachable_initial : reachable initialSession
| reachable_fire (e : Event) (c : Session) :
    reachable c -> enabled e c = true -> reachable (fire e c).

(** The session after a sequence of handler calls, whether or not the
    page would have allowed them. *)
Definition fireAll (es : list Event) (c : Session) : Session :=
  fold_left (fun acc e => fire e acc) es c.

(** ** The specification's default file name, for comparison *)

(** The text after the last dot of a file name, if there is a dot. *)
Fixpoint extension (fileName : string) : option string :=
  match fileName with
  | EmptyString => None
  | String ch rest =>
      match extension rest with
      | Some ext => Some ext
      | None => if Ascii.eqb ch "."%char then Some rest else None
      end
  end.

(** The name the specification's sentence describes:
    [restored-photo.<original-extension-or-png>]. *)
Definition spec_defaultFilename (original : option File) : string :=
  "restored-photo." ++
  match original with
  | Some f => match extension (name f) with Some ext => ext | None => "png" end
  | None => "png"
  end.


(** The handlers called in any order, whatever the page shows, except
    that no restoration is started while another is in flight, and only a
    request in flight can settle. *)
Definition allowed (e : Event) (c : Session) : bool :=
  match e with
  | ClickRestore => match pending c with [] => true | _ :: _ => false end
  | Settle n _ => Nat.ltb n (List.length (pending c))
  | _ => true
  end.

Inductive callable : Session -> Prop :=
| callable_initial : callable initialSession
| callable_fire (e : Event) (c : Session) :
    callable c -> allowed e c = true -> callable (fire e c).

(** ** What a journal did *)

(** The object URLs a journal creates and revokes, in order, and the
    files it sends to the restoration service. *)
Definition creations (j : list Action) : list (File * string) :=
  flat_map (fun a => match a with CreateObjectURL f u => [(f, u)] | _ => [] end) j.

Definition revocations (j : list Action) : list string :=
  flat_map (fun a => match a with RevokeObjectURL u => [u] | _ => [] end) j.

Definition requests (j : list Action) : list File :=
  flat_map (fun a => match a with RestorePhoto f => [f] | _ => [] end) j.

(** The preview object URL the state holds: [originalImageUrl], when it
    is one (an object URL is never the empty string). *)
Definition heldPreview (s : State) : list string :=
  match originalImageUrl s with
  | Some u => if u =? EmptyString then [] else [u]
  | None => []
  end.

(** The live object URLs are exactly the preview the state holds. *)
Definition previewOwned (s : State) (b : Browser) : Prop :=
  blobStore b = heldPreview s.

(** Every live object URL was issued from the identifier supply. *)
Definition issuedBelow (b : Browser) : Prop :=
  forall v, In v (blobStore b) -> exists n, n < nextBlob b /\ v = blobUrl n.

Definition atMostOne (store : list string) : Prop := List.length store <= 1.

(** ** The journals of the handlers, spelled out *)

Definition resetJournal (s : State) : list Action :=
  ([SetOriginalImage None] ++ map RevokeObjectURL (heldPreview s) ++
   [SetOriginalImageUrl None; SetRestoredImageUrl None; SetIsLoading false;
    SetError None] ++
   (if fileInputMounted s then [ClearFileInput] else []))%list.

(** An accepted selection, [u] being the object URL created. *)
Definition selectJournal (f : File) (s : State) (u : string) : list Action :=
  (resetJournal s ++
   [SetOriginalImage (Some f); CreateObjectURL f u; SetOriginalImageUrl (Some u)])%list.

(** [handleRestore] up to the [await], and after the promise settled. *)
Definition restoreJournal (f : File) : list Action :=
  [SetIsLoading true; SetError None; SetRestoredImageUrl None; RestorePhoto f].

Definition settledJournal (f : File) (o : Outcome) : list Action :=
  match o with
  | Fulfilled p => [SetRestoredImageUrl (Some (dataUrl (type f) p)); SetIsLoading false]
  | Rejected err => [ConsoleError err; SetError (Some failureMessage); SetIsLoading false]
  end.

(** ** Invariants *)

(** The five shapes of a session reachable through the page, one per
    status. *)
Inductive Shape : Status -> Session -> Prop :=
| shape_Idle (e : option string) (b : Browser) :
    e = None \/ e = Some validationMessage ->
    blobStore b = [] ->
    Shape Idle (mkSession (mkState None None None false e) b [])
| shape_Ready (f : File) (n : nat) (b : Browser) :
    blobStore b = [blobUrl n] -> n < nextBlob b ->
    Shape Ready
      (mkSession (mkState (Some f) (Some (blobUrl n)) None false None) b [])
| shape_Restoring (f : File) (n : nat) (b : Browser) :
    blobStore b = [blobUrl n] -> n < nextBlob b ->
    Shape Restoring
      (mkSession (mkState (Some f) (Some (blobUrl n)) None true None) b [f])
| shape_Succeeded (f : File) (n : nat) (p : string) (b : Browser) :
    blobStore b = [blobUrl n] -> n < nextBlob b ->
    Shape Succeeded
      (mkSession (mkState (Some f) (Some (blobUrl n))
                    (Some (dataUrl (type f) p)) false None) b [])
| shape_Failed (f : File) (n : nat) (b : Browser) :
    blobStore b = [blobUrl n] -> n < nextBlob b ->
    Shape Failed
      (mkSession (mkState (Some f) (Some (blobUrl n)) None false
                    (Some failureMessage)) b []).

(** What holds of the message whenever restorations do not overlap. *)
Definition messageKept (c : Session) : Prop :=
  (error (state c) = None \/ error (state c) = Some validationMessage \/
   error (state c) = Some failureMessage) /\
  (error (state c) = Some failureMessage ->
   isLoading (state c) = false /\ restoredImageUrl (state c) = None) /\
  (pending c <> [] ->
   error (state c) <> Some failureMessage /\ restoredImageUrl (state c) = None) /\
  List.length (pending c) <= 1.

(** The relation between message and status that the component keeps. *)
Definition messageMatchesStatus (s : State) : Prop :=
  (truthy (error s) = true <->
   status s = Failed \/ error s = Some validationMessage) /\
  (status s = Failed <-> error s = Some failureMessage).

(** ** Sample files and sessions *)

Definition photo_jpg : File := mkFile "photo.jpg" "image/jpeg" "JFIF".
Definition scan_png : File := mkFile "scan.png" "image/png" "PNG".
Definition notes_txt : File := mkFile "notes.txt" "text/plain" "hello".

(** A file was selected. *)
Definition readySession : Session :=
  fire (FileChange (Some photo_jpg)) initialSession.

(** The restoration of the selected file was started and failed. *)
Definition failedSession : Session :=
  fireAll [ClickRestore; Settle 0 (Rejected "network down")] readySession.

(** The restoration of the selected file was started and succeeded. *)
Definition succeededSession : Session :=
  fireAll [ClickRestore; Settle 0 (Fulfilled "Zm9vYmFy")] readySession.

(** ** Proof support *)

Arguments blobUrl : simpl never.
Arguments dataUrl : simpl never.

(** Closes the conjuncts of [messageKept] once the state is explicit. *)
Ltac kept :=
  unfold messageKept; cbn;
  repeat apply conj; auto;
  intros; repeat apply conj; auto; try congruence; try discriminate; try lia.

(** Splits on whether the state holds a preview object URL. *)
Ltac by_preview s :=
  unfold resetJournal, heldPreview, fileInputMounted, truthy;
  destruct (originalImageUrl s) as [?u|]; [destruct (_ =? EmptyString)|].

(** Closes [Forall atMostOne] over the stores of a journal that leaves the
    blob URL store alone. *)
Ltac same_store M :=
  cbn; repeat (apply Forall_cons; [exact M|]); apply Forall_nil.

(** ** The page as a state machine *)

(** The status an event leads to from status [st], when the page lets
    the event happen. *)
Definition nextStatus (e : Event) (st : Status) : Status :=
  match e with
  | FileChange (Some f) => if startsWith (type f) "image/" then Ready else st
  | FileChange None => st
  | ClickSelect => st
  | ClickRestore => Restoring
  | ClickStartOver => Idle
  | Settle _ (Fulfilled _) => Succeeded
  | Settle _ (Rejected _) => Failed
  end.

(** A journal without its console entries. *)
Definition withoutConsole (j : list Action) : list Action :=
  filter (fun a => match a with ConsoleError _ => false | _ => true end) j.

(** The message is absent or one of the two fixed texts. *)
Definition messageFixed (s : State) : Prop :=
  error s = None \/ error s = Some validationMessage \/
  error s = Some failureMessage.

(** The preview is absent or an object URL that was issued, and the
    restored image is absent or a data URL. *)
Definition urlsWellFormed (c : Session) : Prop :=
  (originalImageUrl (state c) = None \/
   exists n, n < nextBlob (browser c) /\
             originalImageUrl (state c) = Some (blobUrl n)) /\
  (restoredImageUrl (state c) = None \/
   exists mime p, restoredImageUrl (state c) = Some (dataUrl mime p)).

(** What the page shows in a session of status [st]. *)
Definition pageShows (st : Status) (s : State) : Prop :=
  let v := render s in
  match st with
  | Idle =>
      originalFrame v = Children /\ restoredFrame v = Children /\
      downloadLink v = None /\
      (banner v = None \/ banner v = Some validationMessage)
  | Ready =>
      (exists u, originalImageUrl s = Some u /\ originalFrame v = Img u) /\
      restoredFrame v = Children /\ downloadLink v = None /\ banner v = None
  | Restoring =>
      (exists u, originalImageUrl s = Some u /\ originalFrame v = Img u) /\
      restoredFrame v = Spinner /\ downloadLink v = None /\ banner v = None
  | Succeeded =>
      (exists u, originalImageUrl s = Some u /\ originalFrame v = Img u) /\
      (exists f p, originalImage s = Some f /\
                   restoredFrame v = Img (dataUrl (type f) p) /\
                   downloadLink v
                   = Some (mkAnchor (dataUrl (type f) p) "restored-photo.png")) /\
      banner v = None
  | Failed =>
      (exists u, originalImageUrl s = Some u /\ originalFrame v = Img u) /\
      restoredFrame v = Children /\ downloadLink v = None /\
      banner v = Some failureMessage
  end.

(** * Part II: properties *)

(** ** Strings and object URLs *)

Lemma blobUrl_truthy (n : nat) : (blobUrl n =? EmptyString) = false.
Proof. reflexivity. Qed.

Lemma dataUrl_truthy (mime p : string) : (dataUrl mime p =? EmptyString) = false.
Proof. reflexivity. Qed.

Lemma blobUrl_inj (n m : nat) : blobUrl n = blobUrl m -> n = m.
Proof.
  unfold blobUrl; intros H.
  apply Unsigned.to_uint_inj.
  assert (E : NilEmpty.string_of_uint (Nat.to_uint n)
              = NilEmpty.string_of_uint (Nat.to_uint m))
    by (cbn in H; congruence).
  apply (f_equal NilEmpty.uint_of_string) in E.
  rewrite !NilEmpty.usu in E. congruence.
Qed.

Lemma issuedBelow_fresh (b : Browser) :
  issuedBelow b -> ~ In (blobUrl (nextBlob b)) (blobStore b).
Proof.
  intros I H. destruct (I _ H) as (n & L & E).
  apply blobUrl_inj in E. lia.
Qed.

Lemma validation_shows_no_failure : showsFailure (Some validationMessage) = false.
Proof. reflexivity. Qed.


Lemma nth_error_last (A : Type) (l : list A) (x : A) :
  nth_error (l ++ [x]) (List.length l) = Some x.
Proof. induction l as [|y l IH]; cbn; [reflexivity | exact IH]. Qed.

Lemma removeNth_last (A : Type) (l : list A) (x : A) :
  removeNth (List.length l) (l ++ [x]) = l.
Proof. induction l as [|y l IH]; cbn; [reflexivity | now rewrite IH]. Qed.

(** ** The status view *)

Lemma status_Failed_iff (s : State) :
  status s = Failed <->
  isLoading s = false /\ truthy (restoredImageUrl s) = false /\
  error s = Some failureMessage.
Proof.
  unfold status, showsFailure.
  destruct (isLoading s), (truthy (restoredImageUrl s));
    try (split; [discriminate | intuition discriminate]).
  destruct (error s) as [m|].
  - destruct (String.eqb_spec m failureMessage) as [->|N].
    + intuition.
    + destruct (present (originalImage s)); split; try discriminate;
        intros (_ & _ & E); congruence.
  - destruct (present (originalImage s)); split; try discriminate;
      intros (_ & _ & E); congruence.
Qed.

Lemma status_Ready_iff (s : State) :
  status s = Ready <->
  isLoading s = false /\ truthy (restoredImageUrl s) = false /\
  showsFailure (error s) = false /\ present (originalImage s) = true.
Proof.
  unfold status.
  destruct (isLoading s), (truthy (restoredImageUrl s)),
    (showsFailure (error s)), (present (originalImage s));
    split; try discriminate; intuition discriminate.
Qed.

(** ** Journals in sequence *)

Lemma commit_app (j k : list Action) (s : State) :
  commit (j ++ k) s = commit k (commit j s).
Proof. apply fold_left_app. Qed.

Lemma performAll_app (j k : list Action) (b : Browser) :
  performAll (j ++ k) b = performAll k (performAll j b).
Proof. apply fold_left_app. Qed.

Lemma stores_app (j k : list Action) (b : Browser) :
  stores (j ++ k) b = (stores j b ++ stores k (performAll j b))%list.
Proof.
  revert b; induction j as [|a j IH]; intros b; cbn; [reflexivity|].
  now rewrite IH.
Qed.

(** ** [resetState] *)

Lemma resetState_runs (s : State) (b : Browser) :
  resetState s b = (tt, performAll (resetJournal s) b, resetJournal s).
Proof. unfold resetState. destruct b as [st n]. by_preview s; reflexivity. Qed.

Lemma resetJournal_commit (s : State) : commit (resetJournal s) s = initialState.
Proof. by_preview s; reflexivity. Qed.

Lemma resetJournal_revocations (s : State) :
  revocations (resetJournal s) = heldPreview s.
Proof. by_preview s; reflexivity. Qed.

Lemma resetJournal_creations (s : State) : creations (resetJournal s) = [].
Proof. by_preview s; reflexivity. Qed.

Lemma resetJournal_supply (s : State) (b : Browser) :
  nextBlob (performAll (resetJournal s) b) = nextBlob b.
Proof. by_preview s; reflexivity. Qed.

Lemma resetJournal_store (s : State) (b : Browser) :
  previewOwned s b -> blobStore (performAll (resetJournal s) b) = [].
Proof.
  unfold previewOwned. destruct b as [st n]; cbn [blobStore]; intros ->.
  by_preview s; cbn; rewrite ?String.eqb_refl; reflexivity.
Qed.

Lemma resetJournal_stores (s : State) (b : Browser) :
  previewOwned s b -> Forall atMostOne (stores (resetJournal s) b).
Proof.
  unfold previewOwned, atMostOne. destruct b as [st n]; cbn [blobStore]; intros ->.
  by_preview s; cbn; rewrite ?String.eqb_refl; cbn; repeat constructor.
Qed.


(** ** [handleFileChange] with a file that is not an image *)

Lemma handleFileChange_rejects (f : File) (s : State) (b : Browser) :
  startsWith (type f) "image/" = false ->
  handleFileChange (Some f) s b = (tt, b, [SetError (Some validationMessage)]).
Proof. intros H; unfold handleFileChange; now rewrite H. Qed.

(** No reading of the state can both tell two states that differ only in
    their message apart and be left alone by a rejected selection: the
    rejection takes both to the same state. *)
Lemma rejection_merges_messages (A : Type) (view : State -> A)
    (f : File) (s : State) (m : option string) (b : Browser) :
  startsWith (type f) "image/" = false ->
  let t := applyAction (SetError m) s in
  view s <> view t ->
  ~ (view (commit (journalOf (handleFileChange (Some f) s b)) s) = view s /\
     view (commit (journalOf (handleFileChange (Some f) t b)) t) = view t).
Proof.
  intros H t N [E1 E2]. subst t.
  rewrite handleFileChange_rejects in E1, E2 by exact H.
  cbn in E1, E2, N. congruence.
Qed.

(** Off the page: were [handleFileChange] called with a rejected file
    after a restoration has failed (the page has no file input then), the
    validation message would replace the failure message and the session
    would no longer read as [Failed]. *)
Lemma rejected_file_after_failure_changes_status :
  startsWith (type notes_txt) "image/" = false /\
  callable failedSession /\
  status (state failedSession) = Failed /\
  error (state failedSession) = Some failureMessage /\
  error (state (fire (FileChange (Some notes_txt)) failedSession))
  = Some validationMessage /\
  status (state (fire (FileChange (Some notes_txt)) failedSession)) = Ready.
Proof.
  repeat apply conj; try reflexivity.
  unfold failedSession, readySession, fireAll; cbn [fold_left].
  repeat (apply callable_fire; [|reflexivity]). apply callable_initial.
Qed.

(** In any state, also off the page: for a file whose MIME type does not
    start with [image/], [handleFileChange] only calls [setError] with the
    validation message; no object URL is created or revoked, the browser
    is untouched, the four other state variables keep their values, and
    the status is unchanged unless it was [Failed]. *)
Lemma rejected_file_sets_only_the_message (f : File) (s : State) (b : Browser) :
  startsWith (type f) "image/" = false ->
  let j := journalOf (handleFileChange (Some f) s b) in
  let b' := browserOf (handleFileChange (Some f) s b) in
  let s' := commit j s in
  j = [SetError (Some validationMessage)] /\
  creations j = [] /\ revocations j = [] /\ b' = b /\
  error s' = Some validationMessage /\
  originalImage s' = originalImage s /\
  originalImageUrl s' = originalImageUrl s /\
  restoredImageUrl s' = restoredImageUrl s /\
  isLoading s' = isLoading s /\
  (status s <> Failed -> status s' = status s) /\
  (status s = Failed ->
   status s' = if present (originalImage s) then Ready else Idle).
Proof.
  intros H. cbv zeta. rewrite (handleFileChange_rejects f s b H).
  cbn [journalOf browserOf snd fst commit fold_left applyAction creations
       revocations flat_map error originalImage originalImageUrl
       restoredImageUrl isLoading app].
  repeat apply conj; try reflexivity.
  - intros N. unfold status in *;
      cbn [isLoading restoredImageUrl error originalImage].
    destruct (isLoading s); [reflexivity|].
    destruct (truthy (restoredImageUrl s)); [reflexivity|].
    destruct (showsFailure (error s)); [congruence|].
    now rewrite validation_shows_no_failure.
  - intros F. apply status_Failed_iff in F as (L & R & _).
    unfold status; cbn [isLoading restoredImageUrl error originalImage].
    now rewrite L, R, validation_shows_no_failure.
Qed.

(** ** [handleFileChange] with an image *)

Lemma handleFileChange_accepts (f : File) (s : State) (b : Browser) :
  startsWith (type f) "image/" = true ->
  let u := blobUrl (nextBlob b) in
  handleFileChange (Some f) s b
  = (tt, performAll (selectJournal f s u) b, selectJournal f s u).
Proof.
  intros H u. unfold handleFileChange, selectJournal. rewrite H; cbn [negb].
  unfold Handler.bind. rewrite resetState_runs.
  unfold createObjectURL, Handler.call. cbv beta iota zeta.
  rewrite performAll_app.
  cbn [performAll perform fold_left blobStore nextBlob app].
  fold (performAll (resetJournal s) b).
  rewrite !resetJournal_supply. reflexivity.
Qed.

Lemma selectJournal_commit (f : File) (s : State) (u : string) :
  commit (selectJournal f s u) s = mkState (Some f) (Some u) None false None.
Proof. unfold selectJournal. now rewrite commit_app, resetJournal_commit. Qed.

Lemma selectJournal_creations (f : File) (s : State) (u : string) :
  creations (selectJournal f s u) = [(f, u)].
Proof.
  unfold selectJournal, creations. rewrite flat_map_app.
  fold (creations (resetJournal s)). now rewrite resetJournal_creations.
Qed.

Lemma selectJournal_store (f : File) (s : State) (u : string) (b : Browser) :
  previewOwned s b -> blobStore (performAll (selectJournal f s u) b) = [u].
Proof.
  intros O. unfold selectJournal. rewrite performAll_app.
  cbn [performAll perform fold_left blobStore nextBlob app].
  fold (performAll (resetJournal s) b). now rewrite resetJournal_store.
Qed.

Lemma selectJournal_keeps_new (f : File) (s : State) (u : string) (b : Browser) :
  In u (blobStore (performAll (selectJournal f s u) b)).
Proof.
  unfold selectJournal. rewrite performAll_app.
  cbn [performAll perform fold_left blobStore nextBlob app].
  apply in_or_app; right; now left.
Qed.

Lemma selectJournal_supply (f : File) (s : State) (u : string) (b : Browser) :
  nextBlob (performAll (selectJournal f s u) b) = S (nextBlob b).
Proof.
  unfold selectJournal. rewrite performAll_app.
  cbn [performAll perform fold_left blobStore nextBlob app].
  fold (performAll (resetJournal s) b). now rewrite resetJournal_supply.
Qed.

Lemma selectJournal_stores (f : File) (s : State) (u : string) (b : Browser) :
  previewOwned s b -> Forall atMostOne (stores (selectJournal f s u) b).
Proof.
  intros O. unfold selectJournal. rewrite stores_app.
  apply Forall_app; split; [now apply resetJournal_stores|].
  cbn [stores perform blobStore nextBlob].
  rewrite (resetJournal_store s b O). unfold atMostOne; cbn. repeat constructor.
Qed.

Lemma selectJournal_owned (f : File) (s : State) (n : nat) (b : Browser) :
  previewOwned s b ->
  previewOwned (commit (selectJournal f s (blobUrl n)) s)
    (performAll (selectJournal f s (blobUrl n)) b).
Proof.
  intros O. unfold previewOwned.
  now rewrite selectJournal_commit, (selectJournal_store f s (blobUrl n) b O).
Qed.

(** C4.  For a file whose MIME type starts with [image/],
    [handleFileChange] commits a state of status [Ready] whose
    [originalImage] is that file and whose [originalImageUrl] is the
    object URL created, in this very call and once, from that file; the
    URL is live afterwards and was not live before; [restoredImageUrl]
    and [error] are [null]. *)
Theorem accepted_file_becomes_the_selection (f : File) (s : State) (b : Browser) :
  startsWith (type f) "image/" = true ->
  let u := blobUrl (nextBlob b) in
  let j := journalOf (handleFileChange (Some f) s b) in
  let b' := browserOf (handleFileChange (Some f) s b) in
  let s' := commit j s in
  status s' = Ready /\
  originalImage s' = Some f /\
  originalImageUrl s' = Some u /\
  creations j = [(f, u)] /\
  In u (blobStore b') /\
  (issuedBelow b -> ~ In u (blobStore b)) /\
  restoredImageUrl s' = None /\
  error s' = None.
Proof.
  intros H u. cbv zeta. rewrite (handleFileChange_accepts f s b H).
  fold u. cbn [journalOf browserOf fst snd]. rewrite selectJournal_commit.
  repeat apply conj; try reflexivity.
  - apply selectJournal_creations.
  - apply selectJournal_keeps_new.
  - apply issuedBelow_fresh.
Qed.

Lemma accepted_file_becomes_the_selection_witness :
  startsWith (type photo_jpg) "image/" = true /\
  status (commit (journalOf (handleFileChange (Some photo_jpg) initialState
                               initialBrowser)) initialState) = Ready /\
  originalImageUrl (commit (journalOf (handleFileChange (Some photo_jpg)
                                         initialState initialBrowser))
                      initialState)
  = Some (blobUrl 0).
Proof.
  split; [reflexivity|].
  destruct (accepted_file_becomes_the_selection photo_jpg initialState
              initialBrowser eq_refl)
    as (R & _ & U & _).
  exact (conj R U).
Defined.

(** ** At most one live preview *)

Lemma previewOwned_atMostOne (s : State) (b : Browser) :
  previewOwned s b -> atMostOne (blobStore b).
Proof.
  unfold previewOwned, atMostOne, heldPreview. intros ->.
  destruct (originalImageUrl s) as [u|]; [destruct (u =? EmptyString)|];
    cbn; lia.
Qed.

(** Whatever handler runs, and whether or not the page would allow it:
    if the live object URLs are the held preview before, they are so
    after, and the store never holds two URLs on the way. *)
Lemma handle_previewOwned (e : Event) (c : Session) :
  previewOwned (state c) (browser c) ->
  previewOwned (state (fire e c)) (browser (fire e c)) /\
  Forall atMostOne (stores (journal e c) (browser c)).
Proof.
  intros O. pose proof (previewOwned_atMostOne _ _ O) as M.
  destruct c as [s b l]; cbn [state browser] in *.
  destruct e as [[g|] | | | | k o]; unfold fire, journal, handle;
    cbn [state browser pending].
  - destruct (startsWith (type g) "image/") eqn:V.
    + rewrite (handleFileChange_accepts g s b V); cbn [fst snd state browser].
      split; [now apply selectJournal_owned | now apply selectJournal_stores].
    + rewrite (handleFileChange_rejects g s b V); cbn.
      split; [exact O | same_store M].
  - cbn. split; [exact O | same_store M].
  - unfold triggerFileSelect. destruct (fileInputMounted s); cbn;
      (split; [exact O | same_store M]).
  - unfold handleRestore. destruct (originalImage s) as [f|]; cbn;
      (split; [exact O | same_store M]).
  - rewrite resetState_runs; cbn [fst snd state browser].
    rewrite resetJournal_commit.
    split; [|now apply resetJournal_stores].
    unfold previewOwned. now rewrite (resetJournal_store s b O).
  - destruct (nth_error l k) as [f|]; [|split; [exact O | same_store M]].
    destruct o; cbn; (split; [exact O | same_store M]).
Qed.

Lemma fireAll_previewOwned (es : list Event) (c : Session) :
  previewOwned (state c) (browser c) ->
  previewOwned (state (fireAll es c)) (browser (fireAll es c)).
Proof.
  revert c; induction es as [|e es IH]; intros c O; [exact O|].
  cbn. apply IH. now apply handle_previewOwned.
Qed.

(** C5.  Two selections of images in a row: the first call stores the
    object URL it created, and the second call revokes exactly that URL
    before it creates its own, a different one (its journal is spelled
    out).  When the only live object URL of the session at the start is
    the preview it holds, the blob URL store holds at most one URL after
    every single call of the two journals: the first URL alone after the
    first selection, the second alone after the second. *)
Theorem second_selection_releases_the_first
    (f1 f2 : File) (s : State) (b : Browser) :
  startsWith (type f1) "image/" = true ->
  startsWith (type f2) "image/" = true ->
  let u1 := blobUrl (nextBlob b) in
  let u2 := blobUrl (S (nextBlob b)) in
  let j1 := journalOf (handleFileChange (Some f1) s b) in
  let b1 := browserOf (handleFileChange (Some f1) s b) in
  let s1 := commit j1 s in
  let j2 := journalOf (handleFileChange (Some f2) s1 b1) in
  let b2 := browserOf (handleFileChange (Some f2) s1 b1) in
  let s2 := commit j2 s1 in
  creations j1 = [(f1, u1)] /\
  originalImageUrl s1 = Some u1 /\
  j2 = [SetOriginalImage None; RevokeObjectURL u1; SetOriginalImageUrl None;
        SetRestoredImageUrl None; SetIsLoading false; SetError None;
        SetOriginalImage (Some f2); CreateObjectURL f2 u2;
        SetOriginalImageUrl (Some u2)] /\
  u1 <> u2 /\
  originalImageUrl s2 = Some u2 /\
  (previewOwned s b ->
   blobStore b1 = [u1] /\
   blobStore b2 = [u2] /\
   Forall atMostOne (stores (j1 ++ j2) b)).
Proof.
  intros H1 H2. cbv zeta.
  rewrite (handleFileChange_accepts f1 s b H1). cbn [journalOf browserOf fst snd].
  rewrite (handleFileChange_accepts f2 _ _ H2). cbn [journalOf browserOf fst snd].
  rewrite selectJournal_supply, selectJournal_commit, selectJournal_commit.
  repeat apply conj; try reflexivity.
  - apply selectJournal_creations.
  - intros E. apply blobUrl_inj in E. lia.
  - intros O.
    pose proof (selectJournal_owned f1 s (nextBlob b) b O) as O1.
    rewrite selectJournal_commit in O1.
    rewrite (selectJournal_store f1 s _ b O), (selectJournal_store f2 _ _ _ O1).
    repeat apply conj; try reflexivity.
    rewrite stores_app. apply Forall_app; split.
    + now apply selectJournal_stores.
    + now apply selectJournal_stores.
Qed.

Lemma second_selection_releases_the_first_witness :
  startsWith (type photo_jpg) "image/" = true /\
  startsWith (type scan_png) "image/" = true /\
  previewOwned initialState initialBrowser /\
  blobStore (browserOf (handleFileChange (Some scan_png)
                          (state readySession) (browser readySession)))
  = [blobUrl 1].
Proof.
  split; [reflexivity | split; [reflexivity | split; [reflexivity|]]].
  destruct (second_selection_releases_the_first photo_jpg scan_png
              initialState initialBrowser eq_refl eq_refl)
    as (_ & _ & _ & _ & _ & S).
  exact (proj1 (proj2 (S eq_refl))).
Defined.

(** ** [handleRestore] *)

Lemma handleRestore_no_file (s : State) (b : Browser) :
  originalImage s = None -> handleRestore s b = (None, b, []).
Proof. intros H; unfold handleRestore; now rewrite H. Qed.

Lemma handleRestore_with_file (s : State) (b : Browser) (f : File) :
  originalImage s = Some f -> handleRestore s b = (Some f, b, restoreJournal f).
Proof. intros H; unfold handleRestore; now rewrite H. Qed.

Lemma handleRestore_settled_runs (f : File) (o : Outcome) (b : Browser) :
  handleRestore_settled f o b = (tt, b, settledJournal f o).
Proof. destruct o; reflexivity. Qed.

Lemma handle_ClickRestore (c : Session) (f : File) :
  originalImage (state c) = Some f ->
  handle ClickRestore c
  = (mkSession (commit (restoreJournal f) (state c)) (browser c)
       (pending c ++ [f]), restoreJournal f).
Proof.
  intros H. unfold handle.
  now rewrite (handleRestore_with_file (state c) (browser c) f H).
Qed.

(** The request made last is the last in flight; when it settles, the
    continuation runs on the state of that moment. *)
Lemma handle_Settle_last (s : State) (b : Browser) (l : list File) (f : File)
    (o : Outcome) :
  handle (Settle (List.length l) o) (mkSession s b (l ++ [f]))
  = (mkSession (commit (settledJournal f o) s) b l, settledJournal f o).
Proof.
  unfold handle. cbn [pending state browser].
  now rewrite nth_error_last, handleRestore_settled_runs, removeNth_last.
Qed.

(** One restoration from start to end, nothing else happening meanwhile:
    the session after it and the journal of the two handler runs. *)
Lemma restoration_runs (c : Session) (f : File) (o : Outcome) :
  originalImage (state c) = Some f ->
  let n := List.length (pending c) in
  fire ClickRestore c
  = mkSession (commit (restoreJournal f) (state c)) (browser c) (pending c ++ [f]) /\
  fire (Settle n o) (fire ClickRestore c)
  = mkSession (commit (restoreJournal f ++ settledJournal f o) (state c))
      (browser c) (pending c) /\
  (journal ClickRestore c ++ journal (Settle n o) (fire ClickRestore c))%list
  = (restoreJournal f ++ settledJournal f o)%list.
Proof.
  intros H n. unfold fire, journal. rewrite (handle_ClickRestore c f H).
  cbn [fst snd]. subst n. rewrite handle_Settle_last. cbn [fst snd].
  now rewrite commit_app.
Qed.

(** The statuses shown during a restoration: [Restoring] until the last
    setter, then the outcome. *)
Lemma restoration_statuses (s : State) (f : File) (o : Outcome) :
  map status (renders (restoreJournal f ++ settledJournal f o) s)
  = match o with
    | Fulfilled _ => [Restoring; Restoring; Restoring; Restoring; Restoring; Succeeded]
    | Rejected _ =>
        [Restoring; Restoring; Restoring; Restoring; Restoring; Restoring; Failed]
    end.
Proof. destruct o; reflexivity. Qed.

Lemma restoration_trace (s : State) (f : File) (o : Outcome) :
  statusTrace s (restoreJournal f ++ settledJournal f o)
  = distinctRuns
      [status s; Restoring;
       match o with Fulfilled _ => Succeeded | Rejected _ => Failed end].
Proof.
  unfold statusTrace. rewrite restoration_statuses.
  destruct o; destruct (status s); reflexivity.
Qed.

(** C6.  In a session without an original file, [handleRestore] returns
    at once: it journals nothing, so no request reaches the restoration
    service, and the state, the browser and the requests in flight are
    what they were; in particular the status does not change. *)
Theorem restore_without_file_does_nothing (c : Session) :
  originalImage (state c) = None ->
  handleRestore (state c) (browser c) = (None, browser c, []) /\
  journal ClickRestore c = [] /\
  requests (journal ClickRestore c) = [] /\
  fire ClickRestore c = c /\
  status (state (fire ClickRestore c)) = status (state c).
Proof.
  intros H.
  pose proof (handleRestore_no_file (state c) (browser c) H) as E.
  assert (F : handle ClickRestore c = (c, [])).
  { unfold handle. rewrite E. cbn. rewrite app_nil_r. now destruct c. }
  unfold fire, journal. rewrite F. cbn. auto.
Qed.

Lemma restore_without_file_does_nothing_witness :
  originalImage (state initialSession) = None /\
  fire ClickRestore initialSession = initialSession.
Proof.
  split; [reflexivity|].
  destruct (restore_without_file_does_nothing initialSession eq_refl)
    as (_ & _ & _ & F & _).
  exact F.
Defined.

(** C7, as stated, fails: a session that holds a file need not be
    [Ready].  After a failed restoration the "Restore Photo" button is
    enabled again, and a restoration that then succeeds goes from
    [Failed], not from [Ready]. *)
Lemma successful_retry_starts_from_Failed :
  originalImage (state failedSession) = Some photo_jpg /\
  enabled ClickRestore failedSession = true /\
  statusTrace (state failedSession)
    (journal ClickRestore failedSession ++
     journal (Settle 0 (Fulfilled "Zm9vYmFy")) (fire ClickRestore failedSession))
  = [Failed; Restoring; Succeeded].
Proof. repeat split. Qed.

(** C7, amended.  In a session that holds a file, a restoration that the
    service fulfils with a base64 payload sends that file to the service
    and takes the status from its value at the click through [Restoring]
    to [Succeeded], in that order: [Ready], [Restoring], [Succeeded] when
    the session was [Ready].  The file is still held at the end and
    [restoredImageUrl] is the data URL made of the file's MIME type and
    the payload. *)
Theorem fulfilled_restoration_succeeds (c : Session) (f : File) (p : string) :
  originalImage (state c) = Some f ->
  let n := List.length (pending c) in
  let c1 := fire ClickRestore c in
  let c2 := fire (Settle n (Fulfilled p)) c1 in
  let j := (journal ClickRestore c ++ journal (Settle n (Fulfilled p)) c1)%list in
  requests j = [f] /\
  status (state c1) = Restoring /\
  status (state c2) = Succeeded /\
  statusTrace (state c) j = distinctRuns [status (state c); Restoring; Succeeded] /\
  (status (state c) = Ready ->
   statusTrace (state c) j = [Ready; Restoring; Succeeded]) /\
  originalImage (state c2) = Some f /\
  restoredImageUrl (state c2) = Some ("data:" ++ type f ++ ";base64," ++ p).
Proof.
  intros H n c1 c2 j.
  destruct (restoration_runs c f (Fulfilled p) H) as (E1 & E2 & EJ).
  subst j c2 c1 n. rewrite EJ, E2, E1. cbn [state].
  rewrite restoration_trace.
  repeat apply conj; try reflexivity.
  - intros R. now rewrite R.
  - cbn. exact H.
Qed.

Lemma fulfilled_restoration_succeeds_witness :
  originalImage (state readySession) = Some photo_jpg /\
  status (state readySession) = Ready /\
  statusTrace (state readySession)
    (journal ClickRestore readySession ++
     journal (Settle 0 (Fulfilled "Zm9vYmFy")) (fire ClickRestore readySession))
  = [Ready; Restoring; Succeeded].
Proof.
  split; [reflexivity | split; [reflexivity|]].
  destruct (fulfilled_restoration_succeeds readySession photo_jpg "Zm9vYmFy"
              eq_refl) as (_ & _ & _ & _ & T & _).
  exact (T eq_refl).
Defined.

(** C8, as stated, fails: a session that holds a file may already show a
    restored image.  A restoration that then fails goes from [Succeeded],
    not from [Ready], and the restored image was set before the call. *)
Lemma failed_retry_starts_from_Succeeded :
  originalImage (state succeededSession) = Some photo_jpg /\
  enabled ClickRestore succeededSession = true /\
  restoredImageUrl (state succeededSession)
  = Some "data:image/jpeg;base64,Zm9vYmFy" /\
  statusTrace (state succeededSession)
    (journal ClickRestore succeededSession ++
     journal (Settle 0 (Rejected "network down"))
       (fire ClickRestore succeededSession))
  = [Succeeded; Restoring; Failed].
Proof. repeat split. Qed.

(** C8, amended.  In a session that holds a file, a restoration that the
    service rejects, for whatever reason, takes the status from its value
    at the click through [Restoring] to [Failed], in that order: [Ready],
    [Restoring], [Failed] when the session was [Ready].  At the end
    [error] is exactly the fixed failure message, the reason is only
    written to the console, and [restoredImageUrl] is [null]; it is
    [null] from the click on, and all along when the session was
    [Ready]. *)
Theorem rejected_restoration_fails (c : Session) (f : File) (err : string) :
  originalImage (state c) = Some f ->
  let n := List.length (pending c) in
  let c1 := fire ClickRestore c in
  let c2 := fire (Settle n (Rejected err)) c1 in
  let j := (journal ClickRestore c ++ journal (Settle n (Rejected err)) c1)%list in
  status (state c1) = Restoring /\
  status (state c2) = Failed /\
  statusTrace (state c) j = distinctRuns [status (state c); Restoring; Failed] /\
  (status (state c) = Ready ->
   statusTrace (state c) j = [Ready; Restoring; Failed]) /\
  error (state c2) = Some "Failed to restore photo. Please try again later." /\
  banner (render (state c2))
  = Some "Failed to restore photo. Please try again later." /\
  restoredImageUrl (state c1) = None /\
  restoredImageUrl (state c2) = None /\
  (status (state c) = Ready ->
   Forall (fun s => truthy (restoredImageUrl s) = false)
     (state c :: renders j (state c))).
Proof.
  intros H n c1 c2 j.
  destruct (restoration_runs c f (Rejected err) H) as (E1 & E2 & EJ).
  subst j c2 c1 n. rewrite EJ, E2, E1. cbn [state].
  rewrite restoration_trace.
  repeat apply conj; try reflexivity.
  - intros R. now rewrite R.
  - intros R. apply status_Ready_iff in R as (_ & T & _).
    cbn. repeat constructor; exact T.
Qed.

Lemma rejected_restoration_fails_witness :
  originalImage (state readySession) = Some photo_jpg /\
  status (state readySession) = Ready /\
  statusTrace (state readySession)
    (journal ClickRestore readySession ++
     journal (Settle 0 (Rejected "network down"))
       (fire ClickRestore readySession))
  = [Ready; Restoring; Failed].
Proof.
  split; [reflexivity | split; [reflexivity|]].
  destruct (rejected_restoration_fails readySession photo_jpg "network down"
              eq_refl) as (_ & _ & _ & T & _).
  exact (T eq_refl).
Defined.

(** C10.  In a session that holds a file, a restoration that the service
    rejects leaves [originalImage] and [originalImageUrl] as they were, in
    every state shown on the way; it creates and revokes no object URL
    and leaves the browser as it was.  Afterwards the "Restore Photo"
    button is enabled, and clicking it sends the same file again. *)
Theorem rejected_restoration_keeps_the_selection
    (c : Session) (f : File) (err : string) :
  originalImage (state c) = Some f ->
  let n := List.length (pending c) in
  let c1 := fire ClickRestore c in
  let c2 := fire (Settle n (Rejected err)) c1 in
  let j := (journal ClickRestore c ++ journal (Settle n (Rejected err)) c1)%list in
  Forall (fun s => originalImage s = Some f /\
                   originalImageUrl s = originalImageUrl (state c))
    (renders j (state c)) /\
  originalImage (state c2) = Some f /\
  originalImageUrl (state c2) = originalImageUrl (state c) /\
  revocations j = [] /\
  creations j = [] /\
  browser c2 = browser c /\
  enabled ClickRestore c2 = true /\
  requests (journal ClickRestore c2) = [f].
Proof.
  intros H n c1 c2 j.
  destruct (restoration_runs c f (Rejected err) H) as (E1 & E2 & EJ).
  subst j c2 c1 n. rewrite EJ, E2. cbn [state browser].
  assert (K : originalImage (commit (restoreJournal f ++ settledJournal f (Rejected err))
                               (state c)) = Some f) by exact H.
  repeat apply conj; try reflexivity; try exact H.
  - cbn. repeat constructor; exact H.
  - unfold enabled. cbn. now rewrite H.
  - unfold journal.
    match goal with
    | |- context [handle ClickRestore ?x] => now rewrite (handle_ClickRestore x f K)
    end.
Qed.

Lemma rejected_restoration_keeps_the_selection_witness :
  originalImage (state readySession) = Some photo_jpg /\
  originalImageUrl
    (state (fire (Settle 0 (Rejected "network down"))
              (fire ClickRestore readySession)))
  = originalImageUrl (state readySession).
Proof.
  split; [reflexivity|].
  destruct (rejected_restoration_keeps_the_selection readySession photo_jpg
              "network down" eq_refl) as (_ & _ & U & _).
  exact U.
Defined.

(** ** The download link *)

(** C2, as stated, fails: the restored JPEG of [photo.jpg] is offered
    under a name ending in [png], not in the original extension. *)
Lemma jpeg_is_saved_under_a_png_name :
  reachable succeededSession /\
  originalImage (state succeededSession) = Some photo_jpg /\
  extension (name photo_jpg) = Some "jpg" /\
  spec_defaultFilename (originalImage (state succeededSession))
  = "restored-photo.jpg" /\
  option_map download (downloadLink (render (state succeededSession)))
  = Some "restored-photo.png" /\
  option_map download (downloadLink (render (state succeededSession)))
  <> Some (spec_defaultFilename (originalImage (state succeededSession))).
Proof.
  repeat apply conj; try reflexivity; [|discriminate].
  unfold succeededSession, readySession, fireAll; cbn [fold_left].
  repeat (apply reachable_fire; [|reflexivity]). apply reachable_initial.
Qed.

(** C2, amended.  Whenever a restored image is shown, the page offers it
    through a download link whose target is [restoredImageUrl] and whose
    default file name is the constant [restored-photo.png], whatever the
    original file is called; without a restored image there is no
    link. *)
Theorem download_name_is_fixed (s : State) :
  (truthy (restoredImageUrl s) = true ->
   exists u, restoredImageUrl s = Some u /\
             downloadLink (render s) = Some (mkAnchor u "restored-photo.png")) /\
  (truthy (restoredImageUrl s) = false -> downloadLink (render s) = None).
Proof.
  unfold render, truthy; cbn [downloadLink].
  destruct (restoredImageUrl s) as [u|]; [destruct (u =? EmptyString)|]; cbn;
    split; intros H; try discriminate; eauto.
Qed.

Lemma download_name_is_fixed_witness :
  truthy (restoredImageUrl (state succeededSession)) = true /\
  exists u, restoredImageUrl (state succeededSession) = Some u /\
            downloadLink (render (state succeededSession))
            = Some (mkAnchor u "restored-photo.png").
Proof.
  split; [reflexivity|].
  exact (proj1 (download_name_is_fixed (state succeededSession)) eq_refl).
Defined.

(** ** The sessions reachable through the page *)

Lemma Shape_status (st : Status) (c : Session) :
  Shape st c -> status (state c) = st.
Proof. destruct 1 as [e b [-> | ->] _ | | | |]; reflexivity. Qed.

Lemma Shape_initial : Shape Idle initialSession.
Proof. apply shape_Idle; [now left | reflexivity]. Qed.

Lemma Shape_fire (st : Status) (c : Session) (e : Event) :
  Shape st c -> enabled e c = true -> exists st', Shape st' (fire e c).
Proof.
  intros S En.
  destruct S as [m b M B | f n b B L | f n b B L | f n p b B L | f n b B L];
    destruct b as [store next]; cbn [blobStore nextBlob] in *; subst store;
    destruct e as [[g|] | | | | k o];
    unfold enabled, fileInputMounted, truthy, render in En;
    cbn [state pending originalImageUrl originalImage restoredImageUrl
         isLoading startOver restoreDisabled present negb orb List.length] in En;
    rewrite ?blobUrl_truthy, ?dataUrl_truthy in En;
    try discriminate En.
  - (* Idle, a file arrives *)
    unfold fire, handle; cbn [state browser pending].
    destruct (startsWith (type g) "image/") eqn:V.
    + rewrite (handleFileChange_accepts g _ _ V); cbn [fst snd nextBlob].
      rewrite selectJournal_commit.
      exists Ready. apply shape_Ready.
      * now apply selectJournal_store.
      * rewrite selectJournal_supply; cbn; lia.
    + rewrite (handleFileChange_rejects g _ _ V); cbn.
      exists Idle. apply shape_Idle; [now right | reflexivity].
  - (* Idle, the picker is closed without a file *)
    exists Idle. now apply shape_Idle.
  - (* Idle, "Select Photo" *)
    exists Idle. now apply shape_Idle.
  - (* Ready, "Restore Photo" *)
    exists Restoring. now apply shape_Restoring.
  - (* Ready, "Start Over" *)
    exists Idle. unfold fire, handle; cbn [state browser pending].
    rewrite resetState_runs; cbn [fst snd]. rewrite resetJournal_commit.
    apply shape_Idle; [now left | now apply resetJournal_store].
  - (* Restoring, the request settles *)
    destruct k as [|k]; [|discriminate En].
    destruct o as [p | err].
    + exists Succeeded. now apply shape_Succeeded.
    + exists Failed. now apply shape_Failed.
  - (* Succeeded, "Restore Photo" *)
    exists Restoring. now apply shape_Restoring.
  - (* Succeeded, "Start Over" *)
    exists Idle. unfold fire, handle; cbn [state browser pending].
    rewrite resetState_runs; cbn [fst snd]. rewrite resetJournal_commit.
    apply shape_Idle; [now left | now apply resetJournal_store].
  - (* Failed, "Restore Photo" *)
    exists Restoring. now apply shape_Restoring.
  - (* Failed, "Start Over" *)
    exists Idle. unfold fire, handle; cbn [state browser pending].
    rewrite resetState_runs; cbn [fst snd]. rewrite resetJournal_commit.
    apply shape_Idle; [now left | now apply resetJournal_store].
Qed.

Lemma reachable_Shape (c : Session) :
  reachable c -> exists st, Shape st c.
Proof.
  induction 1 as [|e c R [st S] En].
  - exists Idle. apply Shape_initial.
  - exact (Shape_fire st c e S En).
Qed.

(** A reachable session has a preview exactly when it has a file, the
    preview is the only live object URL, and a restored image is there
    only when the status is [Succeeded]. *)
Lemma reachable_references (c : Session) :
  reachable c ->
  (originalImage (state c) = None <-> originalImageUrl (state c) = None) /\
  previewOwned (state c) (browser c) /\
  (restoredImageUrl (state c) <> None -> status (state c) = Succeeded).
Proof.
  intros R. destruct (reachable_Shape c R) as [st S].
  destruct S as [m b M B | f n b B L | f n b B L | f n p b B L | f n b B L];
    unfold previewOwned, heldPreview; cbn [state browser originalImage
      originalImageUrl restoredImageUrl]; rewrite ?blobUrl_truthy;
    (split; [split; intros; congruence|]); (split; [exact B|]);
    intros N; try reflexivity; congruence.
Qed.

(** While the file input is on the page, a reachable session is [Idle],
    and stays [Idle] when the file chosen is rejected. *)
Lemma reachable_rejection_keeps_Idle (c : Session) (f : File) :
  reachable c -> enabled (FileChange (Some f)) c = true ->
  startsWith (type f) "image/" = false ->
  status (state c) = Idle /\
  status (state (fire (FileChange (Some f)) c)) = Idle.
Proof.
  intros R M V. destruct (reachable_Shape c R) as [st S].
  destruct S as [m b [-> | ->] B | f' n b B L | f' n b B L | f' n p b B L
                | f' n b B L];
    unfold enabled, fileInputMounted, truthy in M; cbn [state originalImageUrl] in M;
    rewrite ?blobUrl_truthy in M; try discriminate M;
    unfold fire, handle; cbn [state browser pending];
    rewrite (handleFileChange_rejects f _ _ V); split; reflexivity.
Qed.

(** What the page allows never overlaps two restorations. *)
Lemma reachable_callable (c : Session) : reachable c -> callable c.
Proof.
  induction 1 as [|e c R IH En]; [constructor|].
  apply callable_fire; [exact IH|].
  destruct (reachable_Shape c R) as [st S].
  destruct e as [x | | | | k o]; try reflexivity; [|exact En].
  destruct S; try reflexivity. discriminate En.
Qed.

(** ** The message and the status *)

Lemma messageKept_initial : messageKept initialSession.
Proof. kept. Qed.

Lemma messageKept_fire (e : Event) (c : Session) :
  messageKept c -> allowed e c = true -> messageKept (fire e c).
Proof.
  intros (E & F & P & L) A.
  destruct c as [s b l]; cbn [state pending] in *.
  destruct e as [[g|] | | | | k o]; unfold fire, handle;
    cbn [state browser pending].
  - (* handleFileChange with a file *)
    destruct (startsWith (type g) "image/") eqn:V.
    + rewrite (handleFileChange_accepts g s b V); cbn [fst snd].
      rewrite selectJournal_commit. kept.
    + rewrite (handleFileChange_rejects g s b V). kept. now apply P.
  - (* handleFileChange without a file *)
    kept.
  - (* triggerFileSelect *)
    unfold triggerFileSelect. destruct (fileInputMounted s); kept.
  - (* handleRestore *)
    destruct l as [|x l]; [|discriminate A].
    unfold handleRestore. destruct (originalImage s) as [f|] eqn:O; kept.
  - (* resetState *)
    rewrite resetState_runs; cbn [fst snd]. rewrite resetJournal_commit. kept.
  - (* a request settles *)
    destruct l as [|f [|y l]]; cbn in A, L; try discriminate A; [|lia].
    destruct k as [|k]; [|discriminate A].
    destruct (P ltac:(discriminate)) as [NF RN].
    destruct o as [p | err]; kept.
Qed.

Lemma callable_messageKept (c : Session) : callable c -> messageKept c.
Proof.
  induction 1 as [|e c _ IH A]; [apply messageKept_initial|].
  now apply messageKept_fire.
Qed.

Lemma messageKept_matches (c : Session) :
  messageKept c -> messageMatchesStatus (state c).
Proof.
  intros (E & F & _ & _). unfold messageMatchesStatus.
  assert (FS : status (state c) = Failed <-> error (state c) = Some failureMessage).
  { rewrite status_Failed_iff. split; [tauto|].
    intros X. destruct (F X) as [L R]. rewrite L, R. auto. }
  split; [|exact FS].
  split.
  - intros T. destruct E as [E | [E | E]]; rewrite E in *.
    + discriminate T.
    + now right.
    + left. now apply FS.
  - intros [X | X].
    + apply FS in X. now rewrite X.
    + now rewrite X.
Qed.

(** C1, as stated, fails: rejecting a file in the initial session leaves
    a message on the page of a session that is [Idle], not [Failed]. *)
Lemma rejected_file_leaves_message_in_Idle :
  let c := fire (FileChange (Some notes_txt)) initialSession in
  reachable c /\
  error (state c) = Some validationMessage /\
  truthy (error (state c)) = true /\
  status (state c) = Idle /\
  ~ (truthy (error (state c)) = true <-> status (state c) = Failed).
Proof.
  cbv zeta. repeat apply conj; try reflexivity.
  - apply reachable_fire; [apply reachable_initial | reflexivity].
  - intros [H _]. specialize (H eq_refl). discriminate H.
Qed.

(** C1, amended.  In every session brought about by handler calls in any
    order, no two restorations overlapping (so in every session reachable
    through the page), [error] is non-empty if and only if the status is
    [Failed] or [error] is the validation message of a rejected file
    selection; the status is [Failed] exactly when [error] is the failure
    message.  Every further handler call keeps this. *)
Theorem message_matches_status (c : Session) :
  callable c ->
  messageMatchesStatus (state c) /\
  forall e : Event, allowed e c = true -> messageMatchesStatus (state (fire e c)).
Proof.
  intros C. split.
  - now apply messageKept_matches, callable_messageKept.
  - intros e A. apply messageKept_matches, callable_messageKept.
    now apply callable_fire.
Qed.

Lemma message_matches_status_witness :
  callable failedSession /\
  messageMatchesStatus (state failedSession).
Proof.
  assert (C : callable failedSession).
  { unfold failedSession, readySession, fireAll; cbn [fold_left].
    repeat (apply callable_fire; [|reflexivity]). apply callable_initial. }
  split; [exact C|].
  exact (proj1 (message_matches_status failedSession C)).
Defined.

(** ** Rejected files and resets on the page *)

Lemma handle_FileChange_rejects (c : Session) (f : File) :
  startsWith (type f) "image/" = false ->
  handle (FileChange (Some f)) c
  = (mkSession (commit [SetError (Some validationMessage)] (state c))
       (browser c) (pending c),
     [SetError (Some validationMessage)]).
Proof.
  intros V. unfold handle.
  now rewrite (handleFileChange_rejects f (state c) (browser c) V).
Qed.

(** C3.  Whenever the page can deliver a file to [handleFileChange] (the
    session is reachable and the file input is mounted) and the file's
    MIME type does not start with [image/]: the validation message is put
    in [error] and shown in the banner, the status is what it was, no
    object URL is created or revoked, and [originalImage],
    [originalImageUrl], [restoredImageUrl], [isLoading], the browser and
    the requests in flight are what they were. *)
Theorem rejected_file_changes_only_the_message (c : Session) (f : File) :
  reachable c ->
  enabled (FileChange (Some f)) c = true ->
  startsWith (type f) "image/" = false ->
  let c' := fire (FileChange (Some f)) c in
  let j := journal (FileChange (Some f)) c in
  error (state c') = Some validationMessage /\
  banner (render (state c')) = Some validationMessage /\
  status (state c') = status (state c) /\
  creations j = [] /\ revocations j = [] /\ requests j = [] /\
  originalImage (state c') = originalImage (state c) /\
  originalImageUrl (state c') = originalImageUrl (state c) /\
  restoredImageUrl (state c') = restoredImageUrl (state c) /\
  isLoading (state c') = isLoading (state c) /\
  browser c' = browser c /\
  pending c' = pending c.
Proof.
  intros R En V.
  destruct (reachable_rejection_keeps_Idle c f R En V) as [S0 S1].
  cbv zeta. rewrite S1, S0. unfold fire, journal.
  rewrite (handle_FileChange_rejects c f V). cbn [fst snd].
  repeat apply conj; reflexivity.
Qed.

Lemma rejected_file_changes_only_the_message_witness :
  reachable initialSession /\
  enabled (FileChange (Some notes_txt)) initialSession = true /\
  startsWith (type notes_txt) "image/" = false /\
  state (fire (FileChange (Some notes_txt)) initialSession)
  = mkState None None None false (Some validationMessage) /\
  status (state (fire (FileChange (Some notes_txt)) initialSession))
  = status (state initialSession).
Proof.
  split; [exact reachable_initial | split; [reflexivity | split; [reflexivity|]]].
  split; [reflexivity|].
  destruct (rejected_file_changes_only_the_message initialSession notes_txt
              reachable_initial eq_refl eq_refl) as (_ & _ & S & _).
  exact S.
Defined.




(** ** Further properties of the page *)

Lemma Shape_fire_next (st : Status) (c : Session) (e : Event) :
  Shape st c -> enabled e c = true -> Shape (nextStatus e st) (fire e c).
Proof.
  intros S En.
  destruct S as [m b M B | f n b B L | f n b B L | f n p b B L | f n b B L];
    destruct b as [store next]; cbn [blobStore nextBlob] in *; subst store;
    destruct e as [[g|] | | | | k o];
    unfold enabled, fileInputMounted, truthy, render in En;
    cbn [state pending originalImageUrl originalImage restoredImageUrl
         isLoading startOver restoreDisabled present negb orb List.length] in En;
    rewrite ?blobUrl_truthy, ?dataUrl_truthy in En;
    try discriminate En; cbn [nextStatus].
  - unfold fire, handle; cbn [state browser pending].
    destruct (startsWith (type g) "image/") eqn:V.
    + rewrite (handleFileChange_accepts g _ _ V); cbn [fst snd nextBlob].
      rewrite selectJournal_commit. apply shape_Ready.
      * now apply selectJournal_store.
      * rewrite selectJournal_supply; cbn; lia.
    + rewrite (handleFileChange_rejects g _ _ V); cbn.
      apply shape_Idle; [now right | reflexivity].
  - now apply shape_Idle.
  - now apply shape_Idle.
  - now apply shape_Restoring.
  - unfold fire, handle; cbn [state browser pending].
    rewrite resetState_runs; cbn [fst snd]. rewrite resetJournal_commit.
    apply shape_Idle; [now left | now apply resetJournal_store].
  - destruct k as [|k]; [|discriminate En].
    destruct o as [p | err]; [now apply shape_Succeeded | now apply shape_Failed].
  - now apply shape_Restoring.
  - unfold fire, handle; cbn [state browser pending].
    rewrite resetState_runs; cbn [fst snd]. rewrite resetJournal_commit.
    apply shape_Idle; [now left | now apply resetJournal_store].
  - now apply shape_Restoring.
  - unfold fire, handle; cbn [state browser pending].
    rewrite resetState_runs; cbn [fst snd]. rewrite resetJournal_commit.
    apply shape_Idle; [now left | now apply resetJournal_store].
Qed.

Lemma reachable_Shape_status (c : Session) :
  reachable c -> Shape (status (state c)) c.
Proof.
  intros R. destruct (reachable_Shape c R) as [st S].
  now rewrite (Shape_status st c S).
Qed.

Lemma readySession_reachable : reachable readySession.
Proof.
  unfold readySession.
  apply reachable_fire; [apply reachable_initial | reflexivity].
Qed.

Lemma succeededSession_reachable : reachable succeededSession.
Proof.
  unfold succeededSession, readySession, fireAll; cbn [fold_left].
  repeat (apply reachable_fire; [|reflexivity]). apply reachable_initial.
Qed.

(** X1.  On the page the status moves as a function of the event: an
    accepted file leads to [Ready], a rejected file, a cancelled picker and
    "Select Photo" leave the status alone, "Restore Photo" leads to
    [Restoring], "Start Over" to [Idle], and a request that settles leads
    to [Succeeded] or [Failed]. *)
Theorem status_follows_event (c : Session) (e : Event) :
  reachable c -> enabled e c = true ->
  status (state (fire e c)) = nextStatus e (status (state c)).
Proof.
  intros R En.
  apply (Shape_status (nextStatus e (status (state c))) (fire e c)).
  apply Shape_fire_next; [now apply reachable_Shape_status | exact En].
Qed.

Lemma status_follows_event_witness :
  reachable readySession /\ enabled ClickRestore readySession = true /\
  status (state (fire ClickRestore readySession)) = Restoring.
Proof.
  split; [exact readySession_reachable | split; [reflexivity|]].
  exact (status_follows_event readySession ClickRestore
           readySession_reachable eq_refl).
Defined.

(** X2.  In every session reachable through the page, the status decides
    the controls: the file input (with "Select Photo") is on the page
    exactly in [Idle]; "Restore Photo" is disabled exactly in [Idle] and
    [Restoring]; "Start Over" is absent in [Idle], disabled in
    [Restoring] and clickable otherwise. *)
Theorem controls_follow_status (c : Session) :
  reachable c ->
  let st := status (state c) in
  fileInputMounted (state c) = Status_eqb st Idle /\
  restoreDisabled (render (state c))
  = (Status_eqb st Idle || Status_eqb st Restoring) /\
  startOver (render (state c))
  = (if Status_eqb st Idle then None else Some (Status_eqb st Restoring)).
Proof.
  intros R. destruct (reachable_Shape c R) as [st S].
  cbv zeta. rewrite (Shape_status st c S).
  destruct S as [m b [-> | ->] B | | | |]; repeat apply conj; reflexivity.
Qed.

Lemma controls_follow_status_witness :
  reachable succeededSession /\
  restoreDisabled (render (state succeededSession)) = false /\
  startOver (render (state succeededSession)) = Some false.
Proof.
  split; [exact succeededSession_reachable|].
  destruct (controls_follow_status succeededSession succeededSession_reachable)
    as (_ & D & O).
  exact (conj D O).
Defined.

(** X3.  In every session reachable through the page, the status decides
    what is shown: the original frame shows the preview except in [Idle];
    the restored frame shows the spinner exactly in [Restoring] and the
    restored image, a data URL of the held file's MIME type, exactly in
    [Succeeded], where alone the download link exists; the banner shows
    the failure message exactly in [Failed], and otherwise nothing, or in
    [Idle] possibly the validation message. *)
Theorem page_follows_status (c : Session) :
  reachable c -> pageShows (status (state c)) (state c).
Proof.
  intros R. destruct (reachable_Shape c R) as [st S].
  rewrite (Shape_status st c S).
  destruct S as [m b [-> | ->] B | f n b B L | f n b B L | f n p b B L
                | f n b B L]; unfold pageShows; cbv zeta.
  - repeat apply conj; try reflexivity. now left.
  - repeat apply conj; try reflexivity. now right.
  - repeat apply conj; try reflexivity. exists (blobUrl n). now split.
  - repeat apply conj; try reflexivity. exists (blobUrl n). now split.
  - repeat apply conj; try reflexivity.
    + exists (blobUrl n). now split.
    + exists f, p. repeat apply conj; reflexivity.
  - repeat apply conj; try reflexivity. exists (blobUrl n). now split.
Qed.

Lemma page_follows_status_witness :
  reachable succeededSession /\ pageShows Succeeded (state succeededSession).
Proof.
  split; [exact succeededSession_reachable|].
  exact (page_follows_status succeededSession succeededSession_reachable).
Defined.

(** X4.  In every session reachable through the page, a request is in
    flight exactly while [isLoading] is set, there is never more than one,
    it carries the held file, and while it is in flight nothing can happen
    on the page but its settling. *)
Theorem one_request_in_flight (c : Session) :
  reachable c ->
  pending c
  = (if isLoading (state c)
     then match originalImage (state c) with Some f => [f] | None => [] end
     else []) /\
  List.length (pending c) <= 1 /\
  (isLoading (state c) = true ->
   originalImage (state c) <> None /\
   forall e, enabled e c = true -> exists o, e = Settle 0 o).
Proof.
  intros R. destruct (reachable_Shape c R) as [st S].
  destruct S as [m b M B | f n b B L | f n b B L | f n p b B L | f n b B L];
    cbn [state pending isLoading originalImage List.length];
    repeat apply conj; try reflexivity; try lia; try (intros X; discriminate X).
  intros _. split; [discriminate|].
  intros e En. destruct e as [x | | | | k o];
    unfold enabled, fileInputMounted, truthy, render in En;
    cbn [state pending originalImageUrl originalImage restoredImageUrl
         isLoading startOver restoreDisabled present negb orb List.length] in En;
    rewrite ?blobUrl_truthy in En; try discriminate En.
  destruct k as [|k]; [now exists o | discriminate En].
Qed.

Lemma one_request_in_flight_witness :
  reachable (fire ClickRestore readySession) /\
  pending (fire ClickRestore readySession) = [photo_jpg].
Proof.
  assert (R : reachable (fire ClickRestore readySession))
    by (apply reachable_fire; [exact readySession_reachable | reflexivity]).
  split; [exact R|].
  exact (proj1 (one_request_in_flight (fire ClickRestore readySession) R)).
Defined.

(** ** Further properties of the handlers, in any order of calls *)

Lemma fireAll_invariant (P : Session -> Prop) :
  (forall e c, P c -> P (fire e c)) ->
  forall es c, P c -> P (fireAll es c).
Proof.
  intros Step es; induction es as [|e es IH]; intros c H; [exact H|].
  cbn. apply IH, Step, H.
Qed.

Lemma handle_ClickStartOver (c : Session) :
  handle ClickStartOver c
  = (mkSession initialState (performAll (resetJournal (state c)) (browser c))
       (pending c), resetJournal (state c)).
Proof.
  unfold handle. rewrite resetState_runs. now rewrite resetJournal_commit.
Qed.

Lemma handle_FileChange_accepts (c : Session) (f : File) :
  startsWith (type f) "image/" = true ->
  let u := blobUrl (nextBlob (browser c)) in
  handle (FileChange (Some f)) c
  = (mkSession (mkState (Some f) (Some u) None false None)
       (performAll (selectJournal f (state c) u) (browser c)) (pending c),
     selectJournal f (state c) u).
Proof.
  intros V u. unfold handle.
  rewrite (handleFileChange_accepts f (state c) (browser c) V). fold u.
  now rewrite selectJournal_commit.
Qed.

(** X5.  The reason a restoration was rejected with never reaches the
    page: whatever the reason, the session after the rejection is the
    same, and the journals differ only in what is written to the
    console. *)
Theorem rejection_reason_is_only_logged (c : Session) (n : nat) (e1 e2 : string) :
  fire (Settle n (Rejected e1)) c = fire (Settle n (Rejected e2)) c /\
  withoutConsole (journal (Settle n (Rejected e1)) c)
  = withoutConsole (journal (Settle n (Rejected e2)) c) /\
  forall es, fireAll (Settle n (Rejected e1) :: es) c
             = fireAll (Settle n (Rejected e2) :: es) c.
Proof.
  assert (E : fire (Settle n (Rejected e1)) c = fire (Settle n (Rejected e2)) c).
  { unfold fire, handle. destruct (nth_error (pending c) n); reflexivity. }
  repeat apply conj.
  - exact E.
  - unfold journal, handle. destruct (nth_error (pending c) n); reflexivity.
  - intros es. cbn. now rewrite E.
Qed.

(** X6.  The continuation of [handleRestore], in whatever state it
    resumes: it never touches [originalImage] or [originalImageUrl],
    creates and revokes no object URL, makes no request, and always ends
    with [isLoading] false.  Fulfilled, it sets [restoredImageUrl] to the
    data URL of the captured file's MIME type and leaves [error] as it
    is; rejected, it sets [error] to the failure message and leaves
    [restoredImageUrl] as it is. *)
Theorem settled_touches_only_its_cells
    (s : State) (b : Browser) (f : File) (o : Outcome) :
  let j := journalOf (handleRestore_settled f o b) in
  let s' := commit j s in
  originalImage s' = originalImage s /\
  originalImageUrl s' = originalImageUrl s /\
  isLoading s' = false /\
  browserOf (handleRestore_settled f o b) = b /\
  creations j = [] /\ revocations j = [] /\ requests j = [] /\
  match o with
  | Fulfilled p =>
      restoredImageUrl s' = Some (dataUrl (type f) p) /\ error s' = error s
  | Rejected _ =>
      error s' = Some failureMessage /\
      restoredImageUrl s' = restoredImageUrl s
  end.
Proof.
  cbv zeta. rewrite handleRestore_settled_runs.
  destruct o; repeat apply conj; reflexivity.
Qed.

(** X7.  Nothing cancels a request: when "Start Over" runs while a
    restoration is in flight and the request is fulfilled later, the
    restored image appears in a session that has no original file any
    more, with its download link and a clickable "Start Over", under the
    MIME type of the file that was sent. *)
Theorem late_result_survives_reset (c : Session) (f : File) (p : string) :
  originalImage (state c) = Some f ->
  let n := List.length (pending c) in
  let c' := fireAll [ClickRestore; ClickStartOver; Settle n (Fulfilled p)] c in
  state c' = mkState None None (Some (dataUrl (type f) p)) false None /\
  status (state c') = Succeeded /\
  downloadLink (render (state c'))
  = Some (mkAnchor (dataUrl (type f) p) "restored-photo.png") /\
  startOver (render (state c')) = Some false /\
  restoreDisabled (render (state c')) = true /\
  pending c' = pending c.
Proof.
  intros H n. cbv zeta. unfold fireAll; cbn [fold_left].
  assert (E1 : fire ClickRestore c
               = mkSession (commit (restoreJournal f) (state c)) (browser c)
                   (pending c ++ [f]))
    by (unfold fire; now rewrite (handle_ClickRestore c f H)).
  rewrite E1.
  assert (E2 : forall x, fire ClickStartOver x
                    = mkSession initialState
                        (performAll (resetJournal (state x)) (browser x))
                        (pending x))
    by (intros x; unfold fire; now rewrite handle_ClickStartOver).
  rewrite E2. cbn [state browser pending].
  subst n. unfold fire. rewrite handle_Settle_last. cbn [fst state pending].
  repeat apply conj; reflexivity.
Qed.

Lemma late_result_survives_reset_witness :
  originalImage (state readySession) = Some photo_jpg /\
  state (fireAll [ClickRestore; ClickStartOver; Settle 0 (Fulfilled "Zm9vYmFy")]
           readySession)
  = mkState None None (Some (dataUrl "image/jpeg" "Zm9vYmFy")) false None.
Proof.
  split; [reflexivity|].
  exact (proj1 (late_result_survives_reset readySession photo_jpg "Zm9vYmFy"
                  eq_refl)).
Defined.

(** X8.  No object URL leaks, whatever is called and in whatever order:
    after every sequence of handler runs from the initial session the
    live object URLs are exactly the preview the state holds, so at most
    one, and none once the preview is gone; and no handler run passes
    through a store of two URLs. *)
Theorem object_urls_never_leak (es : list Event) (e : Event) :
  let c := fireAll es initialSession in
  previewOwned (state c) (browser c) /\
  atMostOne (blobStore (browser c)) /\
  (originalImageUrl (state c) = None -> blobStore (browser c) = []) /\
  Forall atMostOne (stores (journal e c) (browser c)).
Proof.
  cbv zeta.
  assert (O : previewOwned (state (fireAll es initialSession))
                (browser (fireAll es initialSession)))
    by (apply fireAll_previewOwned; reflexivity).
  repeat apply conj.
  - exact O.
  - exact (previewOwned_atMostOne _ _ O).
  - intros N. unfold previewOwned, heldPreview in O. now rewrite N in O.
  - now apply handle_previewOwned.
Qed.

Lemma object_urls_never_leak_witness :
  originalImageUrl
    (state (fireAll [FileChange (Some photo_jpg); ClickStartOver] initialSession))
  = None /\
  blobStore
    (browser (fireAll [FileChange (Some photo_jpg); ClickStartOver] initialSession))
  = [].
Proof.
  split; [reflexivity|].
  destruct (object_urls_never_leak [FileChange (Some photo_jpg); ClickStartOver]
              ClickSelect) as (_ & _ & E & _).
  exact (E eq_refl).
Defined.

(** X9.  Selecting an image and then starting over, from any session
    whose only live object URL is its preview: the state is the initial
    one, the URL created for the selection is the one revoked, no object
    URL is live, and the requests in flight are what they were. *)
Theorem select_then_start_over (c : Session) (f : File) :
  startsWith (type f) "image/" = true ->
  previewOwned (state c) (browser c) ->
  let c1 := fire (FileChange (Some f)) c in
  let c2 := fire ClickStartOver c1 in
  state c2 = initialState /\
  creations (journal (FileChange (Some f)) c) = [(f, blobUrl (nextBlob (browser c)))] /\
  revocations (journal ClickStartOver c1) = [blobUrl (nextBlob (browser c))] /\
  blobStore (browser c2) = [] /\
  pending c2 = pending c.
Proof.
  intros V O. cbv zeta. unfold fire, journal.
  rewrite (handle_FileChange_accepts c f V). cbn [fst snd].
  rewrite handle_ClickStartOver. cbn [fst snd state browser pending].
  rewrite resetJournal_revocations.
  repeat apply conj; try reflexivity.
  - apply selectJournal_creations.
  - apply resetJournal_store. unfold previewOwned.
    now rewrite (selectJournal_store f _ _ _ O).
Qed.

Lemma select_then_start_over_witness :
  startsWith (type photo_jpg) "image/" = true /\
  previewOwned (state initialSession) (browser initialSession) /\
  state (fire ClickStartOver (fire (FileChange (Some photo_jpg)) initialSession))
  = initialState.
Proof.
  split; [reflexivity | split; [reflexivity|]].
  exact (proj1 (select_then_start_over initialSession photo_jpg eq_refl eq_refl)).
Defined.

Lemma messageFixed_fire (e : Event) (c : Session) :
  messageFixed (state c) -> messageFixed (state (fire e c)).
Proof.
  intros M. destruct c as [s b l]; cbn [state] in M.
  destruct e as [[g|] | | | | k o]; unfold fire, handle;
    cbn [state browser pending].
  - destruct (startsWith (type g) "image/") eqn:V.
    + rewrite (handleFileChange_accepts g s b V); cbn [fst state].
      rewrite selectJournal_commit. now left.
    + rewrite (handleFileChange_rejects g s b V). right; now left.
  - exact M.
  - unfold triggerFileSelect. destruct (fileInputMounted s); exact M.
  - unfold handleRestore. destruct (originalImage s) as [f|]; [now left | exact M].
  - rewrite resetState_runs; cbn [fst state]. rewrite resetJournal_commit.
    now left.
  - destruct (nth_error l k) as [f|]; [|exact M].
    destruct o as [p | err]; [exact M | right; now right].
Qed.

(** X10.  Whatever is called, in whatever order and with whatever
    outcomes, [error] is [null] or one of the two fixed messages, and the
    banner shows nothing else: no text of a file, of a payload or of a
    rejection reason is ever put on the page as a message. *)
Theorem message_is_one_of_two (es : list Event) :
  let s := state (fireAll es initialSession) in
  messageFixed s /\
  (banner (render s) = None \/ banner (render s) = Some validationMessage \/
   banner (render s) = Some failureMessage).
Proof.
  cbv zeta.
  assert (M : messageFixed (state (fireAll es initialSession))).
  { apply (fireAll_invariant (fun c => messageFixed (state c))).
    - intros e c. apply messageFixed_fire.
    - now left. }
  split; [exact M|].
  unfold render; cbn [banner].
  destruct M as [-> | [-> | ->]]; [now left | right; now left | right; now right].
Qed.

Lemma urlsWellFormed_fire (e : Event) (c : Session) :
  urlsWellFormed c -> urlsWellFormed (fire e c).
Proof.
  intros [U R]. destruct c as [s b l]; cbn [state browser] in U, R.
  destruct e as [[g|] | | | | k o]; unfold fire, handle, urlsWellFormed;
    cbn [state browser pending].
  - destruct (startsWith (type g) "image/") eqn:V.
    + rewrite (handleFileChange_accepts g s b V); cbn [fst state browser].
      rewrite selectJournal_commit, selectJournal_supply.
      cbn [originalImageUrl restoredImageUrl].
      split; [right; exists (nextBlob b); split; [lia | reflexivity] | now left].
    + rewrite (handleFileChange_rejects g s b V). split; [exact U | exact R].
  - split; [exact U | exact R].
  - unfold triggerFileSelect. destruct (fileInputMounted s); split; assumption.
  - unfold handleRestore. destruct (originalImage s) as [f|];
      cbn; (split; [exact U | auto]).
  - rewrite resetState_runs; cbn [fst state browser].
    rewrite resetJournal_commit. split; now left.
  - destruct (nth_error l k) as [f|]; [|split; assumption].
    destruct o as [p | err]; cbn; (split; [exact U|]); [|exact R].
    right. now exists (type f), p.
Qed.

(** X11.  The falsy empty string never occurs: whatever is called, in
    whatever order, [originalImageUrl] is [null] or an object URL issued
    by the browser and [restoredImageUrl] is [null] or a data URL, so
    each of the two is truthy exactly when it is not [null]. *)
Theorem urls_are_never_empty (es : list Event) :
  let c := fireAll es initialSession in
  urlsWellFormed c /\
  (truthy (originalImageUrl (state c)) = true <->
   originalImageUrl (state c) <> None) /\
  (truthy (restoredImageUrl (state c)) = true <->
   restoredImageUrl (state c) <> None).
Proof.
  cbv zeta.
  assert (W : urlsWellFormed (fireAll es initialSession)).
  { apply (fireAll_invariant urlsWellFormed).
    - intros e c. apply urlsWellFormed_fire.
    - split; now left. }
  split; [exact W|].
  destruct W as [[U | (n & _ & U)] [R | (m & p & R)]]; rewrite U, R;
    unfold truthy; rewrite ?blobUrl_truthy, ?dataUrl_truthy; cbn;
    repeat split; intros; congruence.
Qed.

(** X12.  On the page, [resetState] blanks the file input exactly when
    it runs inside an accepted selection: "Start Over" is clickable only
    while the input is off the page, so there [fileInputRef.current] is
    [null] and the input is left alone. *)
Theorem input_is_blanked_only_on_selection (c : Session) :
  reachable c ->
  (enabled ClickStartOver c = true ->
   ~ In ClearFileInput (journal ClickStartOver c)) /\
  (forall f, enabled (FileChange (Some f)) c = true ->
             startsWith (type f) "image/" = true ->
             In ClearFileInput (journal (FileChange (Some f)) c) /\
             revocations (journal (FileChange (Some f)) c) = []).
Proof.
  intros R. destruct (reachable_Shape c R) as [st S]. split.
  - intros En. unfold journal. rewrite handle_ClickStartOver. cbn [snd].
    destruct S as [m b M B | f n b B L | f n b B L | f n p b B L | f n b B L];
      try discriminate En;
      unfold resetJournal, heldPreview, fileInputMounted, truthy;
      cbn [state originalImageUrl]; rewrite blobUrl_truthy; cbn;
      intros X; repeat (destruct X as [X | X]; try discriminate X); exact X.
  - intros g En V. unfold journal. rewrite (handle_FileChange_accepts c g V).
    cbn [snd].
    destruct S as [m b M B | f n b B L | f n b B L | f n p b B L | f n b B L];
      unfold enabled, fileInputMounted, truthy in En;
      cbn [state originalImageUrl] in En; rewrite ?blobUrl_truthy in En;
      try discriminate En.
    split; [cbn; tauto | reflexivity].
Qed.

Lemma input_is_blanked_only_on_selection_witness :
  reachable readySession /\ enabled ClickStartOver readySession = true /\
  ~ In ClearFileInput (journal ClickStartOver readySession).
Proof.
  split; [exact readySession_reachable | split; [reflexivity|]].
  exact (proj1 (input_is_blanked_only_on_selection readySession
                  readySession_reachable) eq_refl).
Defined.
